(** * Base/Collector/ConnectEU: the EU-region collector connectivity task

    A shallow embedding of [tasks/base/collector/connectEu.go] and the
    properties of its region gate and of its response classification.

    Go values are modelled as follows.
    - [string] is a Rocq [string] (a sequence of bytes); [+] on strings is
      [+:+].
    - [int] is [Z]; [strconv.Itoa] is the decimal printer of the Standard
      Library.
    - [error] is a record carrying the text that [Error()] returns; a value
      of interface type [error] that may be [nil] is an [option error].
    - [interface{}] is a tagged union [tasks.dyn]; a type assertion
      [v.([]string)] is a checked cast returning the value and an [ok] flag.
    - [map[string]tasks.Result] is a [gmap string tasks.Result]; indexing a
      key that is absent yields the zero value of the element type.
    - a slice is a [list]: only [len] and iteration are observed, so the
      [nil] slice and the empty slice are both [[]].
    - side effects (the call of the injected HTTP function, reading and
      closing the body stream, debug logging) are recorded, in order, in the
      trace of a [World] that is threaded through the code; the process-wide
      [config.Flags] lives in the same [World].  A nil-pointer dereference is
      the outcome [Panicked]. *)

From Stdlib Require Import ZArith String Ascii List DecimalString DecimalZ Lia.
From stdpp Require Import base gmap strings list.

Local Open Scope string_scope.

(** The line feed that Go writes ["\n"]. *)
Definition LF : string := String "010"%char EmptyString.

(** Go's [error] interface, observed through [Error()]. *)
Record error : Type := mkError { Error : string }.

#[global] Instance error_eq_dec : EqDecision error.
Proof. solve_decision. Defined.

(** ** Package [strconv] *)
Module strconv.

Definition Itoa (i : Z) : string := NilZero.string_of_int (Z.to_int i).

End strconv.

(** ** Package [strings] *)
Module strings.

(** [strings.Contains(s, substr)], as a proposition. *)
Definition Contains (s substr : string) : Prop :=
  exists pre post : string, s = pre +:+ substr +:+ post.

(** One step of [strings.Split(s, sep)] for a one-byte separator: [cur]
    holds, reversed, the bytes of the piece being read. *)
Fixpoint split_go (sep : ascii) (cur : string) (s : string) : list string :=
  match s with
  | EmptyString => [String.rev cur]
  | String c rest =>
      if Ascii.eqb c sep
      then String.rev cur :: split_go sep EmptyString rest
      else split_go sep (String c cur) rest
  end.

Definition Split (s : string) (sep : ascii) : list string :=
  split_go sep EmptyString s.

End strings.

(** ** Package [tasks] *)
Module tasks.

(** Modelled from the spec: the declaration of [tasks.Status] is not in
    this file of the repository.  The spec gives the ordered enumeration
    [{None, Success, Warning, Failure}], [None] being the "not evaluated"
    marker and the zero value. *)
Inductive Status : Type := None | Success | Warning | Failure.

#[global] Instance Status_eq_dec : EqDecision Status.
Proof. solve_decision. Defined.

(** A value of type [interface{}]: [nil], or a value tagged with its
    dynamic type. *)
Inductive dyn : Type :=
| DynNil
| DynStringSlice (l : list string)
| DynString (s : string)
| DynInt (n : Z)
| DynBool (b : bool)
| DynStringMap (m : list (string * string)).

#[global] Instance dyn_eq_dec : EqDecision dyn.
Proof. solve_decision. Defined.

(** The type assertion [v.([]string)] in its two-result form. *)
Definition assert_StringSlice (v : dyn) : list string * bool :=
  match v with
  | DynStringSlice l => (l, true)
  | _ => ([], false)
  end.

(** Modelled from the spec: the declaration of [tasks.Result] is not in
    this file of the repository.  The spec lists the fields status,
    summary, url and payload. *)
Record Result : Type := mkResult {
  Status_ : Status;
  Summary : string;
  URL : string;
  Payload : dyn
}.

#[global] Instance Result_eq_dec : EqDecision Result.
Proof. solve_decision. Defined.

(** [tasks.Result{}], also the value of [var result tasks.Result]. *)
Definition Result_zero : Result :=
  {| Status_ := None; Summary := ""; URL := ""; Payload := DynNil |}.

Definition set_Status (r : Result) (s : Status) : Result :=
  {| Status_ := s; Summary := Summary r; URL := URL r; Payload := Payload r |}.

Definition set_Summary (r : Result) (s : string) : Result :=
  {| Status_ := Status_ r; Summary := s; URL := URL r; Payload := Payload r |}.

Definition set_URL (r : Result) (u : string) : Result :=
  {| Status_ := Status_ r; Summary := Summary r; URL := u; Payload := Payload r |}.

(** [reflect.DeepEqual] at type [tasks.Result]. *)
Definition DeepEqual (a b : Result) : bool := bool_decide (a = b).

(** Modelled from the spec: [tasks.Identifier], [IdentifierFromString] and
    [String] are not in this file of the repository.  The spec gives the
    identity as a triple (category, subcategory, name) with the string
    format ["<Category>/<Subcategory>/<Name>"]. *)
Record Identifier : Type := mkIdentifier {
  Category : string;
  Subcategory : string;
  Name : string
}.

Definition IdentifierFromString (ident : string) : Identifier :=
  match strings.Split ident "/"%char with
  | [c; s; n] => {| Category := c; Subcategory := s; Name := n |}
  | _ => {| Category := ""; Subcategory := ""; Name := "" |}
  end.

Definition Identifier_String (i : Identifier) : string :=
  Category i +:+ "/" +:+ Subcategory i +:+ "/" +:+ Name i.

(** Modelled from the spec: [tasks.StringInSlice] is not in this file of
    the repository.  The spec uses it as the membership test of the target
    region code in the sequence of detected region codes. *)
Fixpoint StringInSlice (a : string) (list : list string) : bool :=
  match list with
  | [] => false
  | b :: rest => if String.eqb b a then true else StringInSlice a rest
  end.

(** Modelled from the spec: the declaration of [tasks.Options] is not in
    this file of the repository.  The spec describes an execution-options
    object "exposing at least: was this exact task forced to run". *)
Record Options : Type := mkOptions { ForcedRun : bool }.

End tasks.

(** ** Package [config] *)
Module config.

(** The process-wide [config.Flags].  Its method [IsForcedTask] is not in
    this file of the repository and is taken as given: it answers whether
    the task with this identifier was named on [-t]. *)
Record userFlags : Type := mkUserFlags { IsForcedTask : string -> bool }.

End config.

(** ** Package [httpHelper] *)
Module httpHelper.

(** The fields of [httpHelper.RequestWrapper] that this task sets. *)
Record RequestWrapper : Type := mkRequestWrapper {
  Method : string;
  URL : string;
  TimeoutSeconds : Z
}.

End httpHelper.

(** ** Package [net/http] *)
Module http.

(** A body stream ([io.ReadCloser]): the bytes it delivers and the error,
    if any, with which reading stops before the end of the stream. *)
Record ReadCloser : Type := mkReadCloser {
  content : string;
  readErr : option error
}.

Record Response : Type := mkResponse {
  StatusCode : Z;
  Body : ReadCloser
}.

End http.

(** ** Effects *)

Inductive Event : Type :=
| EvHttpGet (w : httpHelper.RequestWrapper)
| EvReadAll (b : http.ReadCloser)
| EvBodyClose (b : http.ReadCloser)
| EvLogDebug (args : list string).

Record World : Type := mkWorld {
  Flags : config.userFlags;
  trace : list Event
}.

Inductive Outcome (A : Type) : Type :=
| Returned (a : A)
| Panicked.

Arguments Returned {A} a.
Arguments Panicked {A}.

Definition M (A : Type) : Type := World -> Outcome A * World.

Definition ret {A : Type} (a : A) : M A := fun w => (Returned a, w).

Definition bind {A B : Type} (m : M A) (k : A -> M B) : M B :=
  fun w =>
    match m w with
    | (Returned a, w') => k a w'
    | (Panicked, w') => (Panicked, w')
    end.

Declare Scope go_scope.
Delimit Scope go_scope with go.
Notation "x <- m ;; k" := (bind m (fun x => k))
  (at level 100, m at next level, right associativity) : go_scope.
Notation "m ;;; k" := (bind m (fun _ => k))
  (at level 100, right associativity) : go_scope.
Local Open Scope go_scope.

Definition panic {A : Type} : M A := fun w => (Panicked, w).

Definition emit (e : Event) : M unit :=
  fun w => (Returned tt, {| Flags := Flags w; trace := trace w ++ [e] |}).

(** Reading the global variable [config.Flags]. *)
Definition config_Flags : M config.userFlags := fun w => (Returned (Flags w), w).

(** Dereferencing a pointer: [nil] panics. *)
Definition deref {A : Type} (ptr : option A) : M A :=
  match ptr with
  | Some a => ret a
  | Datatypes.None => panic
  end.

(** [defer d] followed by the rest of the function body [m]: [d] runs when
    the body has produced its result, and also when it panicked. *)
Definition defer {A : Type} (d : M unit) (m : M A) : M A :=
  fun w =>
    match m w with
    | (o, w') => (o, snd (d w'))
    end.

(** [log.Debug(args...)] *)
Definition log_Debug (args : list string) : M unit := emit (EvLogDebug args).

(** [ioutil.ReadAll(r)]: the bytes read and the error that stopped the
    reading, [nil] at the end of the stream. *)
Definition ioutil_ReadAll (r : http.ReadCloser) : M (string * option error) :=
  emit (EvReadAll r) ;;; ret (http.content r, http.readErr r).

(** [r.Close()]; the error it returns is dropped by the caller. *)
Definition Body_Close (r : http.ReadCloser) : M unit := emit (EvBodyClose r).

(** ** Package [collector] *)
Module collector.

(** [requestFunc]: a function from a request wrapper to a pointer to an
    [http.Response] and an [error], each of which may be [nil]. *)
Definition requestFunc : Type :=
  httpHelper.RequestWrapper -> option http.Response * option error.

(** BaseCollectorConnectEU - This task connects to collector.newrelic.com
    and reports the status *)
Record BaseCollectorConnectEU : Type := mkBaseCollectorConnectEU {
  upstream : gmap string tasks.Result;
  httpGetter : requestFunc
}.

(** Indexing the upstream map: the zero [tasks.Result] for an absent key. *)
Definition upstream_at (p : BaseCollectorConnectEU) (key : string) : tasks.Result :=
  default tasks.Result_zero (upstream p !! key).

(** The call [p.httpGetter(wrapper)]. *)
Definition call_httpGetter (p : BaseCollectorConnectEU)
    (wrapper : httpHelper.RequestWrapper)
  : M (option http.Response * option error) :=
  emit (EvHttpGet wrapper) ;;; ret (httpGetter p wrapper).

(** Identifier - This returns the Category, Subcategory and Name of each task *)
Definition Identifier (p : BaseCollectorConnectEU) : tasks.Identifier :=
  tasks.IdentifierFromString "Base/Collector/ConnectEU".

(** Explain - Returns the help text for each individual task *)
Definition Explain (p : BaseCollectorConnectEU) : string :=
  "Check network connection to New Relic EU region collector endpoint".

(** Dependencies - This task depends on Base/Config/ProxyDetect *)
Definition Dependencies (p : BaseCollectorConnectEU) : list string :=
  [ "Base/Config/ProxyDetect";
    "Base/Config/RegionDetect" ].

Definition prepareEarlyResult (p : BaseCollectorConnectEU) : tasks.Result :=
  let result := tasks.Result_zero in
  let '(regions, ok) :=
    tasks.assert_StringSlice (tasks.Payload (upstream_at p "Base/Config/RegionDetect")) in
  if ok then
    (* If this region was not in the non-empty list of detected region, return early.
       If no regions were detected, we run all collector connect checks. *)
    if negb (tasks.StringInSlice "eu01" regions) && (0 <? Z.of_nat (length regions))%Z then
      let result := tasks.set_Status result tasks.None in
      let result := tasks.set_Summary result
        "EU Region not detected, skipping EU collector connect check" in
      result
    else result
  else result.

Definition prepareCollectorErrorResult (p : BaseCollectorConnectEU)
    (e : option error) : tasks.Result :=
  let result := tasks.Result_zero in
  match e with
  | Datatypes.None => result
  | Some e =>
      let result := tasks.set_Status result tasks.Failure in
      let result := tasks.set_Summary result
        "There was an error connecting to collector.newrelic.com (EU Region)" in
      let result := tasks.set_Summary result (tasks.Summary result +:+
        LF +:+ "Please check network and proxy settings and try again or see -help for more options.") in
      let result := tasks.set_Summary result (tasks.Summary result +:+
        LF +:+ "Error = " +:+ Error e) in
      let result := tasks.set_URL result
        "https://docs.newrelic.com/docs/apm/new-relic-apm/getting-started/networks" in
      result
  end.

Definition prepareResponseErrorResult (p : BaseCollectorConnectEU)
    (e : option error) (statusCode : string) : tasks.Result :=
  let result := tasks.Result_zero in
  match e with
  | Datatypes.None => result
  | Some e =>
      let result := tasks.set_Status result tasks.Warning in
      let result := tasks.set_Summary result
        ("Status = " +:+ statusCode +:+
         ". When connecting to the EU Region collector, there was an issue reading the body. ") in
      let result := tasks.set_Summary result (tasks.Summary result +:+
        LF +:+ "Please check network and proxy settings and try again or see -help for more options.") in
      let result := tasks.set_Summary result (tasks.Summary result +:+
        "Error = " +:+ Error e) in
      let result := tasks.set_URL result
        "https://docs.newrelic.com/docs/apm/new-relic-apm/getting-started/networks" in
      result
  end.

Definition prepareResult (p : BaseCollectorConnectEU)
    (body statusCode : string) : M tasks.Result :=
  let result := tasks.Result_zero in
  if String.eqb statusCode "200" then
    log_Debug ["Successfully connected"] ;;;
    let result := tasks.set_Status result tasks.Success in
    let result := tasks.set_Summary result
      ("Status Code = " +:+ statusCode +:+ " Body = " +:+ body) in
    ret result
  else
    log_Debug ["Non-200 response received from collector.newrelic.com:"; statusCode] ;;;
    log_Debug ["Body:"; body] ;;;
    let result := tasks.set_Status result tasks.Warning in
    let result := tasks.set_Summary result
      ("collector.newrelic.com (EU Region) returned a non-200 STATUS CODE: " +:+ statusCode) in
    let result := tasks.set_Summary result (tasks.Summary result +:+
      LF +:+ "Please check network and proxy settings and try again or see -help for more options.") in
    let result := tasks.set_Summary result (tasks.Summary result +:+
      LF +:+ "Response Body: " +:+ body) in
    let result := tasks.set_URL result
      "https://docs.newrelic.com/docs/apm/new-relic-apm/getting-started/networks" in
    ret result.

(** Execute - Attempts to connect to the EU collector endpont *)
Definition Execute (p : BaseCollectorConnectEU) (op : tasks.Options)
    (upstream : gmap string tasks.Result) : M tasks.Result :=
  let p := {| upstream := upstream; httpGetter := httpGetter p |} in
  let url := "https://collector.eu.newrelic.com/jserrors/ping" in
  (* everything from "Make request" on *)
  let request : M tasks.Result :=
    let wrapper := {| httpHelper.Method := "GET";
                      httpHelper.URL := url;
                      httpHelper.TimeoutSeconds := 30 |} in
    got <- call_httpGetter p wrapper ;;
    let '(resp, err) := got in
    match err with
    | Some _ =>
        (* HTTP error *)
        ret (prepareCollectorErrorResult p err)
    | Datatypes.None =>
        resp <- deref resp ;;
        defer (Body_Close (http.Body resp))
          ((* Parse HTTP response body *)
           read <- ioutil_ReadAll (http.Body resp) ;;
           let '(body, err) := read in
           match err with
           | Some _ =>
               (* body parse error result *)
               ret (prepareResponseErrorResult p err (strconv.Itoa (http.StatusCode resp)))
           | Datatypes.None =>
               (* Successful request, return result based on status code *)
               prepareResult p body (strconv.Itoa (http.StatusCode resp))
           end)
    end in
  flags <- config_Flags ;;
  (* Was the task not explicitely provided on -t ? *)
  if negb (config.IsForcedTask flags (tasks.Identifier_String (Identifier p))) then
    let result := prepareEarlyResult p in
    (* Early result received, bailing *)
    if negb (tasks.DeepEqual result tasks.Result_zero) then ret result
    else request
  else request.

End collector.

(** ** Vocabulary of the properties *)

(** The events that running [m] from the world [w] adds to the trace. *)
Definition events {A : Type} (m : M A) (w : World) : list Event :=
  drop (length (trace w)) (trace (snd (m w))).

Definition is_close (e : Event) : bool :=
  match e with
  | EvBodyClose _ => true
  | _ => false
  end.

(** How many times a body stream is closed in a sequence of events. *)
Fixpoint close_calls (t : list Event) : nat :=
  match t with
  | [] => 0
  | e :: t' => (if is_close e then 1 else 0) + close_calls t'
  end.

(** The key of the region-detection result in the upstream store. *)
Definition RegionDetect : string := "Base/Config/RegionDetect".

(** The request that [Execute] hands to the injected HTTP function. *)
Definition probe_request : httpHelper.RequestWrapper :=
  {| httpHelper.Method := "GET";
     httpHelper.URL := "https://collector.eu.newrelic.com/jserrors/ping";
     httpHelper.TimeoutSeconds := 30 |}.

(** The link to the remediation documentation. *)
Definition networks_doc : string :=
  "https://docs.newrelic.com/docs/apm/new-relic-apm/getting-started/networks".

(** In the run of [Execute] from [w] the injected HTTP function is called. *)
Definition ProbeInvoked (p : collector.BaseCollectorConnectEU) (op : tasks.Options)
    (ups : gmap string tasks.Result) (w : World) : Prop :=
  exists wr, EvHttpGet wr ∈ events (collector.Execute p op ups) w.

(** In the run of [Execute] from [w] the injected HTTP function is called and
    hands back [out]. *)
Definition ProbeReturned (p : collector.BaseCollectorConnectEU) (op : tasks.Options)
    (ups : gmap string tasks.Result) (w : World)
    (out : option http.Response * option error) : Prop :=
  exists wr, EvHttpGet wr ∈ events (collector.Execute p op ups) w
             /\ collector.httpGetter p wr = out.

(** The decision table of the response classifier, as the specification
    gives it: the first matching row wins. *)
Definition decision_table (transport_error body_read_error : option error)
    (status_code : string) : tasks.Status :=
  match transport_error with
  | Some _ => tasks.Failure
  | Datatypes.None =>
      match body_read_error with
      | Some _ => tasks.Warning
      | Datatypes.None =>
          if String.eqb status_code "200" then tasks.Success else tasks.Warning
      end
  end.

(** The remediation link is present exactly on Warning and Failure. *)
Definition url_iff_problem (r : tasks.Result) : Prop :=
  tasks.URL r <> "" <-> (tasks.Status_ r = tasks.Warning \/ tasks.Status_ r = tasks.Failure).

(** The world [w] with the events [l] appended to its trace. *)
Definition extend (w : World) (l : list Event) : World :=
  {| Flags := Flags w; trace := trace w ++ l |}.

(** The Result with which the region gate bails out. *)
Definition skip_result : tasks.Result :=
  {| tasks.Status_ := tasks.None;
     tasks.Summary := "EU Region not detected, skipping EU collector connect check";
     tasks.URL := "";
     tasks.Payload := tasks.DynNil |}.

(** The receiver as [Execute] sees it after [p.upstream = upstream]. *)
Definition with_upstream (p : collector.BaseCollectorConnectEU)
    (ups : gmap string tasks.Result) : collector.BaseCollectorConnectEU :=
  {| collector.upstream := ups; collector.httpGetter := collector.httpGetter p |}.

(** The region gate lets the run through to the request. *)
Definition runs_request (p : collector.BaseCollectorConnectEU)
    (ups : gmap string tasks.Result) (w : World) : Prop :=
  config.IsForcedTask (Flags w) "Base/Collector/ConnectEU" = true
  \/ collector.prepareEarlyResult (with_upstream p ups) = tasks.Result_zero.

(** ** Sample inputs *)

(** A world in which no task was named on [-t]. *)
Definition idle_world : World :=
  {| Flags := {| config.IsForcedTask := fun _ => false |}; trace := [] |}.

(** A world in which this task was named on [-t]. *)
Definition forced_world : World :=
  {| Flags := {| config.IsForcedTask := String.eqb "Base/Collector/ConnectEU" |};
     trace := [] |}.

Definition ok_body : http.ReadCloser :=
  {| http.content := "OK"; http.readErr := Datatypes.None |}.

Definition ok_response : http.Response :=
  {| http.StatusCode := 200; http.Body := ok_body |}.

Definition broken_body : http.ReadCloser :=
  {| http.content := "O"; http.readErr := Some {| Error := "unexpected EOF" |} |}.

Definition broken_response : http.Response :=
  {| http.StatusCode := 200; http.Body := broken_body |}.

Definition unavailable_response : http.Response :=
  {| http.StatusCode := 503;
     http.Body := {| http.content := "unavailable"; http.readErr := Datatypes.None |} |}.

(** A task whose HTTP function answers 200 with the body ["OK"]. *)
Definition ok_task : collector.BaseCollectorConnectEU :=
  {| collector.upstream := ∅;
     collector.httpGetter := fun _ => (Some ok_response, Datatypes.None) |}.

(** A task whose HTTP function fails with ["connection refused"]. *)
Definition refused_task : collector.BaseCollectorConnectEU :=
  {| collector.upstream := ∅;
     collector.httpGetter :=
       fun _ => (Datatypes.None, Some {| Error := "connection refused" |}) |}.

(** A task whose response body cannot be read to its end. *)
Definition broken_task : collector.BaseCollectorConnectEU :=
  {| collector.upstream := ∅;
     collector.httpGetter := fun _ => (Some broken_response, Datatypes.None) |}.

(** A task whose HTTP function answers 503. *)
Definition unavailable_task : collector.BaseCollectorConnectEU :=
  {| collector.upstream := ∅;
     collector.httpGetter := fun _ => (Some unavailable_response, Datatypes.None) |}.

(** The region detection found the US region only. *)
Definition us_detected : tasks.Result :=
  {| tasks.Status_ := tasks.Success;
     tasks.Summary := "";
     tasks.URL := "";
     tasks.Payload := tasks.DynStringSlice ["us01"] |}.

Definition us_store : gmap string tasks.Result := {[ RegionDetect := us_detected ]}.

(** The region detection found nothing. *)
Definition none_detected : tasks.Result :=
  {| tasks.Status_ := tasks.Success;
     tasks.Summary := "";
     tasks.URL := "";
     tasks.Payload := tasks.DynStringSlice [] |}.

Definition empty_store : gmap string tasks.Result := {[ RegionDetect := none_detected ]}.

Definition not_forced : tasks.Options := {| tasks.ForcedRun := false |}.
Definition forced : tasks.Options := {| tasks.ForcedRun := true |}.

(** ** Further vocabulary: reads of the body, and the runs of [Execute] *)

Definition is_read (e : Event) : bool :=
  match e with
  | EvReadAll _ => true
  | _ => false
  end.

(** How many times a body stream is read in a sequence of events. *)
Fixpoint read_calls (t : list Event) : nat :=
  match t with
  | [] => 0
  | e :: t' => (if is_read e then 1 else 0) + read_calls t'
  end.

(** The six ways in which a run of [Execute] from [w] can go, each with its
    outcome and the events it adds to the trace. *)
Inductive Run (p : collector.BaseCollectorConnectEU)
    (ups : gmap string tasks.Result) (w : World)
  : Outcome tasks.Result -> list Event -> Prop :=
| RunSkipped :
    config.IsForcedTask (Flags w) "Base/Collector/ConnectEU" = false ->
    collector.prepareEarlyResult (with_upstream p ups) = skip_result ->
    Run p ups w (Returned skip_result) []
| RunTransportError (resp : option http.Response) (e : error) :
    runs_request p ups w ->
    collector.httpGetter p probe_request = (resp, Some e) ->
    Run p ups w
      (Returned (collector.prepareCollectorErrorResult p (Some e)))
      [EvHttpGet probe_request]
| RunNilResponse :
    runs_request p ups w ->
    collector.httpGetter p probe_request = (Datatypes.None, Datatypes.None) ->
    Run p ups w Panicked [EvHttpGet probe_request]
| RunReadError (resp : http.Response) (e : error) :
    runs_request p ups w ->
    collector.httpGetter p probe_request = (Some resp, Datatypes.None) ->
    http.readErr (http.Body resp) = Some e ->
    Run p ups w
      (Returned (collector.prepareResponseErrorResult p (Some e)
                   (strconv.Itoa (http.StatusCode resp))))
      [EvHttpGet probe_request; EvReadAll (http.Body resp); EvBodyClose (http.Body resp)]
| RunOk200 (resp : http.Response) :
    runs_request p ups w ->
    collector.httpGetter p probe_request = (Some resp, Datatypes.None) ->
    http.readErr (http.Body resp) = Datatypes.None ->
    http.StatusCode resp = 200%Z ->
    Run p ups w
      (Returned {| tasks.Status_ := tasks.Success;
                   tasks.Summary :=
                     "Status Code = 200 Body = " +:+ http.content (http.Body resp);
                   tasks.URL := "";
                   tasks.Payload := tasks.DynNil |})
      [EvHttpGet probe_request; EvReadAll (http.Body resp);
       EvLogDebug ["Successfully connected"]; EvBodyClose (http.Body resp)]
| RunNon200 (resp : http.Response) :
    runs_request p ups w ->
    collector.httpGetter p probe_request = (Some resp, Datatypes.None) ->
    http.readErr (http.Body resp) = Datatypes.None ->
    http.StatusCode resp <> 200%Z ->
    Run p ups w
      (Returned {| tasks.Status_ := tasks.Warning;
                   tasks.Summary :=
                     (("collector.newrelic.com (EU Region) returned a non-200 STATUS CODE: "
                         +:+ strconv.Itoa (http.StatusCode resp))
                        +:+ LF +:+ "Please check network and proxy settings and try again or see -help for more options.")
                     +:+ LF +:+ "Response Body: " +:+ http.content (http.Body resp);
                   tasks.URL := networks_doc;
                   tasks.Payload := tasks.DynNil |})
      [EvHttpGet probe_request; EvReadAll (http.Body resp);
       EvLogDebug ["Non-200 response received from collector.newrelic.com:";
                   strconv.Itoa (http.StatusCode resp)];
       EvLogDebug ["Body:"; http.content (http.Body resp)];
       EvBodyClose (http.Body resp)].

(** *** Further sample inputs *)

(** The region detection found the US and the EU region. *)
Definition both_detected : tasks.Result :=
  {| tasks.Status_ := tasks.Success;
     tasks.Summary := "";
     tasks.URL := "";
     tasks.Payload := tasks.DynStringSlice ["us01"; "eu01"] |}.

Definition both_store : gmap string tasks.Result := {[ RegionDetect := both_detected ]}.

(** The region detection left a payload of another type. *)
Definition odd_detected : tasks.Result :=
  {| tasks.Status_ := tasks.Failure;
     tasks.Summary := "no regions";
     tasks.URL := "";
     tasks.Payload := tasks.DynString "eu01" |}.

Definition odd_store : gmap string tasks.Result := {[ RegionDetect := odd_detected ]}.


(** A task whose HTTP function hands back a response together with an error. *)
Definition redirect_task : collector.BaseCollectorConnectEU :=
  {| collector.upstream := ∅;
     collector.httpGetter :=
       fun _ => (Some ok_response, Some {| Error := "stopped after 10 redirects" |}) |}.

(** A task that answers like [ok_task] and carries a stale upstream store. *)
Definition stale_task : collector.BaseCollectorConnectEU :=
  {| collector.upstream := us_store;
     collector.httpGetter := fun _ => (Some ok_response, Datatypes.None) |}.

(** The store of [empty_store] with the result of one more, unrelated
    task. *)
Definition crowded_store : gmap string tasks.Result :=
  <[ "Base/Env/CollectEnvVars" := us_detected ]> empty_store.

(** ** Basic facts *)

Lemma Identifier_String_eq (p : collector.BaseCollectorConnectEU) :
  tasks.Identifier_String (collector.Identifier p) = "Base/Collector/ConnectEU".
Proof. reflexivity. Qed.

Lemma StringInSlice_elem (a : string) (l : list string) :
  tasks.StringInSlice a l = true <-> a ∈ l.
Proof.
  induction l as [|b l IH]; simpl.
  - split; [discriminate | intros H; inversion H].
  - destruct (String.eqb_spec b a) as [->|Hne].
    + split; [intros _; left | reflexivity].
    + rewrite IH. split; [intros H; now right |].
      intros H. inversion H; subst; [congruence | assumption].
Qed.

Lemma StringInSlice_not_elem (a : string) (l : list string) :
  a ∉ l -> tasks.StringInSlice a l = false.
Proof.
  intros H. destruct (tasks.StringInSlice a l) eqn:E; [|reflexivity].
  apply StringInSlice_elem in E. contradiction.
Qed.

Lemma Itoa_200 (z : Z) : strconv.Itoa z = "200" -> z = 200%Z.
Proof.
  unfold strconv.Itoa. intros H.
  rewrite <- (DecimalZ.of_to z).
  assert (Hd : NilZero.int_of_string (NilZero.string_of_int (Z.to_int z))
               = NilZero.int_of_string "200") by (now rewrite H).
  destruct (Z.to_int z) as [u|u] eqn:Eu.
  - destruct u; try discriminate H;
      (rewrite NilZero.isi in Hd by discriminate; injection Hd as ->; reflexivity).
  - destruct u; try discriminate H;
      (rewrite NilZero.isi in Hd by discriminate; discriminate Hd).
Qed.

Lemma Itoa_not_200 (z : Z) : z <> 200%Z -> String.eqb (strconv.Itoa z) "200" = false.
Proof.
  intros Hz. destruct (String.eqb_spec (strconv.Itoa z) "200") as [E|E]; [|reflexivity].
  apply Itoa_200 in E. contradiction.
Qed.

(** ** The world after a run *)

Lemma extend_nil (w : World) : extend w [] = w.
Proof. destruct w as [f t]. unfold extend. simpl. now rewrite app_nil_r. Qed.

Lemma extend_extend (w : World) (l1 l2 : list Event) :
  extend (extend w l1) l2 = extend w (l1 ++ l2).
Proof. unfold extend. simpl. now rewrite <- app_assoc. Qed.

Lemma events_extend {A : Type} (m : M A) (w : World) (o : Outcome A) (l : list Event) :
  m w = (o, extend w l) -> events m w = l.
Proof.
  intros H. unfold events. rewrite H. simpl. apply drop_app_length.
Qed.

Lemma events_same {A : Type} (m : M A) (w : World) (o : Outcome A) :
  m w = (o, w) -> events m w = [].
Proof.
  intros H. apply (events_extend m w o). now rewrite extend_nil.
Qed.

(** ** The region gate *)

Lemma prepareEarlyResult_values (p : collector.BaseCollectorConnectEU) :
  collector.prepareEarlyResult p = skip_result
  \/ collector.prepareEarlyResult p = tasks.Result_zero.
Proof.
  unfold collector.prepareEarlyResult.
  destruct (tasks.assert_StringSlice _) as [regions [|]]; [|now right].
  destruct (negb _ && _); [now left | now right].
Qed.

Lemma prepareEarlyResult_skip (p : collector.BaseCollectorConnectEU)
    (r0 : tasks.Result) (regions : list string) :
  collector.upstream p !! RegionDetect = Some r0 ->
  tasks.Payload r0 = tasks.DynStringSlice regions ->
  regions <> [] ->
  "eu01" ∉ regions ->
  collector.prepareEarlyResult p = skip_result.
Proof.
  intros Hk Hp Hne Hin.
  unfold collector.prepareEarlyResult, collector.upstream_at.
  change "Base/Config/RegionDetect" with RegionDetect.
  rewrite Hk. simpl. rewrite Hp. simpl.
  rewrite (StringInSlice_not_elem _ _ Hin).
  destruct regions as [|x l]; [congruence | reflexivity].
Qed.

Lemma prepareEarlyResult_open (p : collector.BaseCollectorConnectEU) :
  collector.upstream p !! RegionDetect = Datatypes.None
  \/ (exists r0, collector.upstream p !! RegionDetect = Some r0
                 /\ forall l, tasks.Payload r0 <> tasks.DynStringSlice l)
  \/ (exists r0, collector.upstream p !! RegionDetect = Some r0
                 /\ tasks.Payload r0 = tasks.DynStringSlice []) ->
  collector.prepareEarlyResult p = tasks.Result_zero.
Proof.
  unfold collector.prepareEarlyResult, collector.upstream_at.
  change "Base/Config/RegionDetect" with RegionDetect.
  intros [Hk | [(r0 & Hk & Hp) | (r0 & Hk & Hp)]]; rewrite Hk; simpl.
  - reflexivity.
  - destruct (tasks.Payload r0) eqn:E; try reflexivity.
    exfalso. now apply (Hp l).
  - rewrite Hp. reflexivity.
Qed.

Lemma skip_result_not_zero : tasks.DeepEqual skip_result tasks.Result_zero = false.
Proof. reflexivity. Qed.

(** ** The classification functions *)

Lemma prepareResult_200 (p : collector.BaseCollectorConnectEU) (body : string) (w : World) :
  collector.prepareResult p body "200" w
  = (Returned {| tasks.Status_ := tasks.Success;
                 tasks.Summary := "Status Code = 200 Body = " +:+ body;
                 tasks.URL := "";
                 tasks.Payload := tasks.DynNil |},
     extend w [EvLogDebug ["Successfully connected"]]).
Proof. reflexivity. Qed.

Lemma prepareResult_non200 (p : collector.BaseCollectorConnectEU)
    (body statusCode : string) (w : World) :
  String.eqb statusCode "200" = false ->
  collector.prepareResult p body statusCode w
  = (Returned {| tasks.Status_ := tasks.Warning;
                 tasks.Summary :=
                   (("collector.newrelic.com (EU Region) returned a non-200 STATUS CODE: "
                       +:+ statusCode)
                      +:+ LF +:+ "Please check network and proxy settings and try again or see -help for more options.")
                   +:+ LF +:+ "Response Body: " +:+ body;
                 tasks.URL := networks_doc;
                 tasks.Payload := tasks.DynNil |},
     extend w [EvLogDebug ["Non-200 response received from collector.newrelic.com:"; statusCode];
               EvLogDebug ["Body:"; body]]).
Proof.
  intros H. unfold collector.prepareResult. rewrite H.
  unfold bind, log_Debug, emit, ret, extend. simpl.
  rewrite <- app_assoc. reflexivity.
Qed.

(** ** The runs of [Execute] *)

Ltac step :=
  unfold bind, ret, emit, panic, deref, defer, config_Flags, ioutil_ReadAll,
    Body_Close, collector.call_httpGetter;
  cbn - [collector.prepareEarlyResult collector.prepareCollectorErrorResult
         collector.prepareResponseErrorResult collector.prepareResult
         strconv.Itoa tasks.DeepEqual app].

Ltac enter_Execute :=
  unfold collector.Execute, with_upstream in *;
  rewrite ?Identifier_String_eq;
  step.

Ltac pass_gate H :=
  let F := fresh "F" in
  let E := fresh "E" in
  destruct H as [F | E];
  [rewrite F | rewrite E; destruct (config.IsForcedTask _ _)];
  step; fold probe_request.

Lemma Execute_gate (p : collector.BaseCollectorConnectEU)
    (ups : gmap string tasks.Result) (w : World) :
  (config.IsForcedTask (Flags w) "Base/Collector/ConnectEU" = false
   /\ collector.prepareEarlyResult (with_upstream p ups) = skip_result)
  \/ runs_request p ups w.
Proof.
  unfold runs_request.
  destruct (config.IsForcedTask _ _); [right; now left |].
  destruct (prepareEarlyResult_values (with_upstream p ups)) as [H | H].
  - left. now split.
  - right. now right.
Qed.

Lemma Execute_bail (p : collector.BaseCollectorConnectEU) (op : tasks.Options)
    (ups : gmap string tasks.Result) (w : World) :
  config.IsForcedTask (Flags w) "Base/Collector/ConnectEU" = false ->
  collector.prepareEarlyResult (with_upstream p ups) = skip_result ->
  collector.Execute p op ups w = (Returned skip_result, w).
Proof.
  intros F E. enter_Execute. rewrite F, E. reflexivity.
Qed.

Lemma Execute_transport_error (p : collector.BaseCollectorConnectEU) (op : tasks.Options)
    (ups : gmap string tasks.Result) (w : World)
    (resp : option http.Response) (e : error) :
  runs_request p ups w ->
  collector.httpGetter p probe_request = (resp, Some e) ->
  collector.Execute p op ups w
  = (Returned (collector.prepareCollectorErrorResult (with_upstream p ups) (Some e)),
     extend w [EvHttpGet probe_request]).
Proof.
  intros R G. unfold runs_request in R. enter_Execute.
  pass_gate R; rewrite G; reflexivity.
Qed.

Lemma Execute_nil_response (p : collector.BaseCollectorConnectEU) (op : tasks.Options)
    (ups : gmap string tasks.Result) (w : World) :
  runs_request p ups w ->
  collector.httpGetter p probe_request = (Datatypes.None, Datatypes.None) ->
  collector.Execute p op ups w = (Panicked, extend w [EvHttpGet probe_request]).
Proof.
  intros R G. unfold runs_request in R. enter_Execute.
  pass_gate R; rewrite G; reflexivity.
Qed.

Lemma Execute_read_error (p : collector.BaseCollectorConnectEU) (op : tasks.Options)
    (ups : gmap string tasks.Result) (w : World)
    (resp : http.Response) (e : error) :
  runs_request p ups w ->
  collector.httpGetter p probe_request = (Some resp, Datatypes.None) ->
  http.readErr (http.Body resp) = Some e ->
  collector.Execute p op ups w
  = (Returned (collector.prepareResponseErrorResult (with_upstream p ups) (Some e)
                 (strconv.Itoa (http.StatusCode resp))),
     extend w [EvHttpGet probe_request;
               EvReadAll (http.Body resp);
               EvBodyClose (http.Body resp)]).
Proof.
  intros R G E. unfold runs_request in R. enter_Execute.
  pass_gate R; rewrite G; step; rewrite E;
    unfold extend; simpl; rewrite <- !app_assoc; reflexivity.
Qed.

Lemma Execute_read_ok (p : collector.BaseCollectorConnectEU) (op : tasks.Options)
    (ups : gmap string tasks.Result) (w : World) (resp : http.Response) :
  runs_request p ups w ->
  collector.httpGetter p probe_request = (Some resp, Datatypes.None) ->
  http.readErr (http.Body resp) = Datatypes.None ->
  collector.Execute p op ups w
  = defer (Body_Close (http.Body resp))
      (collector.prepareResult (with_upstream p ups) (http.content (http.Body resp))
         (strconv.Itoa (http.StatusCode resp)))
      (extend w [EvHttpGet probe_request; EvReadAll (http.Body resp)]).
Proof.
  intros R G E. unfold runs_request in R. enter_Execute.
  pass_gate R; rewrite G; step; rewrite E;
    unfold extend; simpl; rewrite <- !app_assoc; reflexivity.
Qed.

Lemma Execute_ok_200 (p : collector.BaseCollectorConnectEU) (op : tasks.Options)
    (ups : gmap string tasks.Result) (w : World) (resp : http.Response) :
  runs_request p ups w ->
  collector.httpGetter p probe_request = (Some resp, Datatypes.None) ->
  http.readErr (http.Body resp) = Datatypes.None ->
  http.StatusCode resp = 200%Z ->
  collector.Execute p op ups w
  = (Returned {| tasks.Status_ := tasks.Success;
                 tasks.Summary :=
                   "Status Code = 200 Body = " +:+ http.content (http.Body resp);
                 tasks.URL := "";
                 tasks.Payload := tasks.DynNil |},
     extend w [EvHttpGet probe_request;
               EvReadAll (http.Body resp);
               EvLogDebug ["Successfully connected"];
               EvBodyClose (http.Body resp)]).
Proof.
  intros R G E C.
  rewrite (Execute_read_ok p op ups w resp R G E), C.
  change (strconv.Itoa 200) with "200".
  unfold defer, Body_Close, emit. rewrite prepareResult_200.
  unfold extend. simpl. rewrite <- !app_assoc. reflexivity.
Qed.

Lemma Execute_ok_non200 (p : collector.BaseCollectorConnectEU) (op : tasks.Options)
    (ups : gmap string tasks.Result) (w : World) (resp : http.Response) :
  runs_request p ups w ->
  collector.httpGetter p probe_request = (Some resp, Datatypes.None) ->
  http.readErr (http.Body resp) = Datatypes.None ->
  http.StatusCode resp <> 200%Z ->
  collector.Execute p op ups w
  = (Returned {| tasks.Status_ := tasks.Warning;
                 tasks.Summary :=
                   (("collector.newrelic.com (EU Region) returned a non-200 STATUS CODE: "
                       +:+ strconv.Itoa (http.StatusCode resp))
                      +:+ LF +:+ "Please check network and proxy settings and try again or see -help for more options.")
                   +:+ LF +:+ "Response Body: " +:+ http.content (http.Body resp);
                 tasks.URL := networks_doc;
                 tasks.Payload := tasks.DynNil |},
     extend w [EvHttpGet probe_request;
               EvReadAll (http.Body resp);
               EvLogDebug ["Non-200 response received from collector.newrelic.com:";
                           strconv.Itoa (http.StatusCode resp)];
               EvLogDebug ["Body:"; http.content (http.Body resp)];
               EvBodyClose (http.Body resp)]).
Proof.
  intros R G E C.
  rewrite (Execute_read_ok p op ups w resp R G E).
  unfold defer, Body_Close, emit.
  rewrite (prepareResult_non200 _ _ _ _ (Itoa_not_200 _ C)).
  unfold extend. simpl. rewrite <- !app_assoc. reflexivity.
Qed.

Ltac no_probe_in H :=
  repeat (apply elem_of_cons in H as [H | H]; [discriminate H |]);
  apply elem_of_nil in H; contradiction.

(** A run that passes the gate calls the HTTP function once, first of all,
    with [probe_request]. *)
Lemma request_events (p : collector.BaseCollectorConnectEU) (op : tasks.Options)
    (ups : gmap string tasks.Result) (w : World) :
  runs_request p ups w ->
  exists l, events (collector.Execute p op ups) w = EvHttpGet probe_request :: l
            /\ forall wr, EvHttpGet wr ∉ l.
Proof.
  intros R.
  destruct (collector.httpGetter p probe_request) as [[resp|] [e|]] eqn:G.
  - eexists. split.
    + eapply events_extend. apply (Execute_transport_error _ _ _ _ _ _ R G).
    + intros wr H. no_probe_in H.
  - destruct (http.readErr (http.Body resp)) as [e|] eqn:E.
    + eexists. split.
      * eapply events_extend. apply (Execute_read_error _ _ _ _ _ _ R G E).
      * intros wr H. no_probe_in H.
    + destruct (Z.eq_dec (http.StatusCode resp) 200%Z) as [C | C].
      * eexists. split.
        -- eapply events_extend. apply (Execute_ok_200 _ _ _ _ _ R G E C).
        -- intros wr H. no_probe_in H.
      * eexists. split.
        -- eapply events_extend. apply (Execute_ok_non200 _ _ _ _ _ R G E C).
        -- intros wr H. no_probe_in H.
  - eexists. split.
    + eapply events_extend. apply (Execute_transport_error _ _ _ _ _ _ R G).
    + intros wr H. no_probe_in H.
  - eexists. split.
    + eapply events_extend. apply (Execute_nil_response _ _ _ _ R G).
    + intros wr H. no_probe_in H.
Qed.

Lemma bail_events (p : collector.BaseCollectorConnectEU) (op : tasks.Options)
    (ups : gmap string tasks.Result) (w : World) :
  config.IsForcedTask (Flags w) "Base/Collector/ConnectEU" = false ->
  collector.prepareEarlyResult (with_upstream p ups) = skip_result ->
  events (collector.Execute p op ups) w = [].
Proof.
  intros F E. eapply events_same. apply (Execute_bail _ _ _ _ F E).
Qed.

Lemma ProbeInvoked_runs_request (p : collector.BaseCollectorConnectEU) (op : tasks.Options)
    (ups : gmap string tasks.Result) (w : World) :
  ProbeInvoked p op ups w <-> runs_request p ups w.
Proof.
  split.
  - intros [wr H]. destruct (Execute_gate p ups w) as [[F E] | R]; [|exact R].
    rewrite (bail_events p op ups w F E) in H. now apply elem_of_nil in H.
  - intros R. destruct (request_events p op ups w R) as (l & El & _).
    exists probe_request. rewrite El. apply elem_of_cons. now left.
Qed.

Lemma ProbeReturned_inv (p : collector.BaseCollectorConnectEU) (op : tasks.Options)
    (ups : gmap string tasks.Result) (w : World)
    (out : option http.Response * option error) :
  ProbeReturned p op ups w out ->
  runs_request p ups w /\ collector.httpGetter p probe_request = out.
Proof.
  intros (wr & H & G).
  assert (R : runs_request p ups w).
  { apply (ProbeInvoked_runs_request p op). now exists wr. }
  split; [exact R |].
  destruct (request_events p op ups w R) as (l & El & Hl).
  rewrite El in H. apply elem_of_cons in H as [H | H].
  - injection H as ->. exact G.
  - now apply Hl in H.
Qed.

Lemma Contains_prefix (sub post : string) : strings.Contains (sub +:+ post) sub.
Proof. exists "", post. reflexivity. Qed.

Lemma us_store_skips (p : collector.BaseCollectorConnectEU) :
  collector.prepareEarlyResult (with_upstream p us_store) = skip_result.
Proof. reflexivity. Qed.

(** ** The region gate of [Execute] *)

(** C1.  Let the upstream store hold, under "Base/Config/RegionDetect", a
    Result whose payload is a non-empty list of region codes without "eu01",
    and let [config.Flags] not name this task as forced.  Then [Execute]
    returns a Result of status [None] whose summary contains "EU Region not
    detected", the world is left as it was, and the injected HTTP function
    is not called. *)
Theorem C1_region_gate_skips
    (p : collector.BaseCollectorConnectEU) (op : tasks.Options)
    (ups : gmap string tasks.Result) (w : World)
    (r0 : tasks.Result) (regions : list string) :
  ups !! RegionDetect = Some r0 ->
  tasks.Payload r0 = tasks.DynStringSlice regions ->
  regions <> [] ->
  "eu01" ∉ regions ->
  config.IsForcedTask (Flags w) "Base/Collector/ConnectEU" = false ->
  exists r : tasks.Result,
    collector.Execute p op ups w = (Returned r, w)
    /\ tasks.Status_ r = tasks.None
    /\ strings.Contains (tasks.Summary r) "EU Region not detected"
    /\ ~ ProbeInvoked p op ups w.
Proof.
  intros Hk Hp Hne Hin F.
  assert (E : collector.prepareEarlyResult (with_upstream p ups) = skip_result).
  { now apply (prepareEarlyResult_skip (with_upstream p ups) r0 regions). }
  exists skip_result. repeat split.
  - now apply Execute_bail.
  - apply (Contains_prefix "EU Region not detected").
  - intros [wr H]. rewrite (bail_events p op ups w F E) in H.
    now apply elem_of_nil in H.
Qed.

Lemma C1_region_gate_skips_witness :
  exists r : tasks.Result,
    collector.Execute ok_task not_forced us_store idle_world = (Returned r, idle_world)
    /\ tasks.Status_ r = tasks.None
    /\ strings.Contains (tasks.Summary r) "EU Region not detected"
    /\ ~ ProbeInvoked ok_task not_forced us_store idle_world.
Proof.
  apply (C1_region_gate_skips ok_task not_forced us_store idle_world us_detected ["us01"]).
  - reflexivity.
  - reflexivity.
  - discriminate.
  - intros H. apply list_elem_of_singleton in H. discriminate H.
  - reflexivity.
Defined.

(** C3, as the claim words it: the forced-run flag is the one that the
    execution options passed to [Execute] expose.  [Execute] does not look at
    its options: with the flag set there, the US-only store and nothing
    forced in [config.Flags], the HTTP function is not called. *)
Lemma C3_options_flag_is_not_read :
  ~ (forall (p : collector.BaseCollectorConnectEU) (op : tasks.Options)
            (ups : gmap string tasks.Result) (w : World),
        tasks.ForcedRun op = true -> ProbeInvoked p op ups w).
Proof.
  intros H.
  specialize (H ok_task forced us_store idle_world eq_refl).
  apply ProbeInvoked_runs_request in H. destruct H as [F | E].
  - discriminate F.
  - rewrite us_store_skips in E. discriminate E.
Qed.

(** C3, amended.  When the process-wide [config.Flags] names
    "Base/Collector/ConnectEU" as a forced task, [Execute] calls the
    injected HTTP function, exactly once and before anything else, with the
    GET request for the EU collector, whatever the upstream store and the
    execution options are. *)
Theorem C3_forced_by_config_flags
    (p : collector.BaseCollectorConnectEU) (op : tasks.Options)
    (ups : gmap string tasks.Result) (w : World) :
  config.IsForcedTask (Flags w) "Base/Collector/ConnectEU" = true ->
  ProbeInvoked p op ups w
  /\ exists l, events (collector.Execute p op ups) w = EvHttpGet probe_request :: l
               /\ forall wr, EvHttpGet wr ∉ l.
Proof.
  intros F.
  assert (R : runs_request p ups w) by now left.
  split.
  - now apply ProbeInvoked_runs_request.
  - now apply request_events.
Qed.

Lemma C3_forced_by_config_flags_witness :
  ProbeInvoked ok_task not_forced us_store forced_world
  /\ exists l, events (collector.Execute ok_task not_forced us_store) forced_world
               = EvHttpGet probe_request :: l
               /\ forall wr, EvHttpGet wr ∉ l.
Proof.
  apply (C3_forced_by_config_flags ok_task not_forced us_store forced_world).
  reflexivity.
Defined.

(** Every Result that a run past the gate returns has the status of the
    decision table, read at what the HTTP function and the body stream
    delivered. *)
Lemma request_status (p : collector.BaseCollectorConnectEU) (op : tasks.Options)
    (ups : gmap string tasks.Result) (w : World) (r : tasks.Result) (w' : World) :
  runs_request p ups w ->
  collector.Execute p op ups w = (Returned r, w') ->
  exists resp terr,
    collector.httpGetter p probe_request = (resp, terr)
    /\ tasks.Status_ r
       = decision_table terr
           (resp ≫= fun a => http.readErr (http.Body a))
           (from_option (fun a => strconv.Itoa (http.StatusCode a)) "" resp)
    /\ url_iff_problem r.
Proof.
  intros R X.
  destruct (collector.httpGetter p probe_request) as [resp terr] eqn:G.
  exists resp, terr. split; [reflexivity |].
  destruct terr as [e|].
  - rewrite (Execute_transport_error _ _ _ _ _ _ R G) in X.
    injection X as <- _. split; [reflexivity |].
    split; [intros _; now right | intros _; discriminate].
  - destruct resp as [resp|].
    + destruct (http.readErr (http.Body resp)) as [e|] eqn:E.
      * rewrite (Execute_read_error _ _ _ _ _ _ R G E) in X.
        injection X as <- _. simpl. rewrite E. split; [reflexivity |].
        split; [intros _; now left | intros _; discriminate].
      * destruct (Z.eq_dec (http.StatusCode resp) 200%Z) as [C | C].
        -- rewrite (Execute_ok_200 _ _ _ _ _ R G E C) in X.
           injection X as <- _. simpl. rewrite E, C. split; [reflexivity |].
           split; [intros N; now destruct N | intros [N | N]; discriminate N].
        -- rewrite (Execute_ok_non200 _ _ _ _ _ R G E C) in X.
           injection X as <- _. simpl. rewrite E, (Itoa_not_200 _ C).
           split; [reflexivity |].
           split; [intros _; now left | intros _; discriminate].
    + rewrite (Execute_nil_response _ _ _ _ R G) in X. discriminate X.
Qed.

Lemma decision_table_range (terr rerr : option error) (code : string) :
  decision_table terr rerr code = tasks.Success
  \/ decision_table terr rerr code = tasks.Warning
  \/ decision_table terr rerr code = tasks.Failure.
Proof.
  unfold decision_table. destruct terr, rerr; auto.
  all: destruct (String.eqb code "200"); auto.
Qed.

(** C4.  When the upstream store has no "Base/Config/RegionDetect" entry, or
    the payload of that entry is not a list of strings, or that list is
    empty, [Execute] calls the injected HTTP function, whatever
    [config.Flags] says, and the Result it returns does not have the status
    [None]: it is not the skip Result. *)
Theorem C4_region_gate_fails_open
    (p : collector.BaseCollectorConnectEU) (op : tasks.Options)
    (ups : gmap string tasks.Result) (w : World) :
  ups !! RegionDetect = Datatypes.None
  \/ (exists r0, ups !! RegionDetect = Some r0
                 /\ forall l, tasks.Payload r0 <> tasks.DynStringSlice l)
  \/ (exists r0, ups !! RegionDetect = Some r0
                 /\ tasks.Payload r0 = tasks.DynStringSlice []) ->
  ProbeInvoked p op ups w
  /\ forall (r : tasks.Result) (w' : World),
       collector.Execute p op ups w = (Returned r, w') ->
       tasks.Status_ r <> tasks.None /\ r <> skip_result.
Proof.
  intros H.
  assert (R : runs_request p ups w).
  { right. now apply prepareEarlyResult_open. }
  split.
  - now apply ProbeInvoked_runs_request.
  - intros r w' X.
    destruct (request_status p op ups w r w' R X) as (resp & terr & _ & S & _).
    assert (N : tasks.Status_ r <> tasks.None).
    { rewrite S.
      destruct (decision_table_range terr
                  (resp ≫= fun a => http.readErr (http.Body a))
                  (from_option (fun a => strconv.Itoa (http.StatusCode a)) "" resp))
        as [D | [D | D]]; rewrite D; discriminate. }
    split; [exact N |]. intros ->. now apply N.
Qed.

Lemma C4_region_gate_fails_open_witness :
  ProbeInvoked ok_task not_forced empty_store idle_world
  /\ forall (r : tasks.Result) (w' : World),
       collector.Execute ok_task not_forced empty_store idle_world = (Returned r, w') ->
       tasks.Status_ r <> tasks.None /\ r <> skip_result.
Proof.
  apply (C4_region_gate_fails_open ok_task not_forced empty_store idle_world).
  right. right. exists none_detected. split; reflexivity.
Defined.

(** ** The classification of the response *)

(** C5.  When the injected HTTP function is called and hands back a non-nil
    error (a timeout is such an error), [Execute] returns a Result of status
    [Failure]; its summary is the fixed advice followed by "Error = " and the
    text of the error, whole and unchanged, and its URL is the link to the
    remediation documentation. *)
Theorem C5_transport_error_is_failure
    (p : collector.BaseCollectorConnectEU) (op : tasks.Options)
    (ups : gmap string tasks.Result) (w : World)
    (resp : option http.Response) (e : error) :
  ProbeReturned p op ups w (resp, Some e) ->
  exists (r : tasks.Result) (w' : World),
    collector.Execute p op ups w = (Returned r, w')
    /\ tasks.Status_ r = tasks.Failure
    /\ tasks.Summary r
       = "There was an error connecting to collector.newrelic.com (EU Region)"
         +:+ LF +:+ "Please check network and proxy settings and try again or see -help for more options."
         +:+ LF +:+ "Error = " +:+ Error e
    /\ (exists pre, tasks.Summary r = pre +:+ "Error = " +:+ Error e)
    /\ tasks.URL r = networks_doc.
Proof.
  intros H. apply ProbeReturned_inv in H as [R G].
  eexists. eexists. split; [apply (Execute_transport_error _ _ _ _ _ _ R G) |].
  repeat split.
  exists ("There was an error connecting to collector.newrelic.com (EU Region)"
          +:+ LF +:+ "Please check network and proxy settings and try again or see -help for more options."
          +:+ LF).
  reflexivity.
Qed.

Lemma C5_transport_error_is_failure_witness :
  exists (r : tasks.Result) (w' : World),
    collector.Execute refused_task not_forced empty_store idle_world = (Returned r, w')
    /\ tasks.Status_ r = tasks.Failure
    /\ tasks.Summary r
       = "There was an error connecting to collector.newrelic.com (EU Region)"
         +:+ LF +:+ "Please check network and proxy settings and try again or see -help for more options."
         +:+ LF +:+ "Error = " +:+ "connection refused"
    /\ (exists pre, tasks.Summary r = pre +:+ "Error = " +:+ "connection refused")
    /\ tasks.URL r = networks_doc.
Proof.
  apply (C5_transport_error_is_failure refused_task not_forced empty_store idle_world
           Datatypes.None {| Error := "connection refused" |}).
  exists probe_request. split; [| reflexivity].
  vm_compute. apply elem_of_cons. now left.
Defined.

(** C6.  When the injected HTTP function is called and hands back a response
    with status code 200 and no error, and the body reads without error,
    [Execute] returns a Result of status [Success] whose summary is exactly
    "Status Code = 200 Body = " followed by the body text and whose URL is
    empty.  An empty body is a [Success] as well, and for the body "OK" the
    summary is "Status Code = 200 Body = OK". *)
Theorem C6_status_200_is_success
    (p : collector.BaseCollectorConnectEU) (op : tasks.Options)
    (ups : gmap string tasks.Result) (w : World) (resp : http.Response) :
  ProbeReturned p op ups w (Some resp, Datatypes.None) ->
  http.StatusCode resp = 200%Z ->
  http.readErr (http.Body resp) = Datatypes.None ->
  exists (r : tasks.Result) (w' : World),
    collector.Execute p op ups w = (Returned r, w')
    /\ tasks.Status_ r = tasks.Success
    /\ tasks.Summary r = "Status Code = 200 Body = " +:+ http.content (http.Body resp)
    /\ tasks.URL r = ""
    /\ (http.content (http.Body resp) = "" ->
        tasks.Status_ r = tasks.Success /\ tasks.Summary r = "Status Code = 200 Body = ")
    /\ (http.content (http.Body resp) = "OK" ->
        tasks.Summary r = "Status Code = 200 Body = OK").
Proof.
  intros H C E. apply ProbeReturned_inv in H as [R G].
  eexists. eexists. split; [apply (Execute_ok_200 _ _ _ _ _ R G E C) |].
  cbn [tasks.Status_ tasks.Summary tasks.URL].
  split; [reflexivity |]. split; [reflexivity |]. split; [reflexivity |].
  split; intros ->; [split |]; reflexivity.
Qed.

Lemma C6_status_200_is_success_witness :
  exists (r : tasks.Result) (w' : World),
    collector.Execute ok_task not_forced empty_store idle_world = (Returned r, w')
    /\ tasks.Status_ r = tasks.Success
    /\ tasks.Summary r = "Status Code = 200 Body = " +:+ "OK"
    /\ tasks.URL r = ""
    /\ ("OK" = "" ->
        tasks.Status_ r = tasks.Success /\ tasks.Summary r = "Status Code = 200 Body = ")
    /\ ("OK" = "OK" -> tasks.Summary r = "Status Code = 200 Body = OK").
Proof.
  apply (C6_status_200_is_success ok_task not_forced empty_store idle_world ok_response).
  - exists probe_request. split; [| reflexivity].
    vm_compute. apply elem_of_cons. now left.
  - reflexivity.
  - reflexivity.
Defined.

(** C7.  When the injected HTTP function is called and hands back a response
    and no error, the body stream of that response is closed exactly once in
    the run of [Execute]: the close is the last event of the run, it comes
    after the body was read, and no other close happens; this holds when the
    reading of the body fails, when the status code is 200 and when it is
    not. *)
Theorem C7_body_closed_exactly_once
    (p : collector.BaseCollectorConnectEU) (op : tasks.Options)
    (ups : gmap string tasks.Result) (w : World) (resp : http.Response) :
  ProbeReturned p op ups w (Some resp, Datatypes.None) ->
  exists (r : tasks.Result) (w' : World) (pre : list Event),
    collector.Execute p op ups w = (Returned r, w')
    /\ events (collector.Execute p op ups) w = (pre ++ [EvBodyClose (http.Body resp)])%list
    /\ EvReadAll (http.Body resp) ∈ pre
    /\ close_calls pre = 0
    /\ close_calls (events (collector.Execute p op ups) w) = 1.
Proof.
  intros H. apply ProbeReturned_inv in H as [R G].
  destruct (http.readErr (http.Body resp)) as [e|] eqn:E;
    [| destruct (Z.eq_dec (http.StatusCode resp) 200%Z) as [C | C]].
  - pose proof (Execute_read_error _ op _ _ _ _ R G E) as X.
    rewrite (events_extend _ _ _ _ X).
    eexists; eexists;
      exists [EvHttpGet probe_request; EvReadAll (http.Body resp)].
    split; [exact X |]. repeat split.
    apply elem_of_cons. right. apply elem_of_cons. now left.
  - pose proof (Execute_ok_200 _ op _ _ _ R G E C) as X.
    rewrite (events_extend _ _ _ _ X).
    eexists; eexists;
      exists [EvHttpGet probe_request; EvReadAll (http.Body resp);
              EvLogDebug ["Successfully connected"]].
    split; [exact X |]. repeat split.
    apply elem_of_cons. right. apply elem_of_cons. now left.
  - pose proof (Execute_ok_non200 _ op _ _ _ R G E C) as X.
    rewrite (events_extend _ _ _ _ X).
    eexists; eexists;
      exists [EvHttpGet probe_request; EvReadAll (http.Body resp);
              EvLogDebug ["Non-200 response received from collector.newrelic.com:";
                          strconv.Itoa (http.StatusCode resp)];
              EvLogDebug ["Body:"; http.content (http.Body resp)]].
    split; [exact X |]. repeat split.
    apply elem_of_cons. right. apply elem_of_cons. now left.
Qed.

Lemma C7_body_closed_exactly_once_witness :
  exists (r : tasks.Result) (w' : World) (pre : list Event),
    collector.Execute broken_task not_forced empty_store idle_world = (Returned r, w')
    /\ events (collector.Execute broken_task not_forced empty_store) idle_world
       = (pre ++ [EvBodyClose broken_body])%list
    /\ EvReadAll broken_body ∈ pre
    /\ close_calls pre = 0
    /\ close_calls (events (collector.Execute broken_task not_forced empty_store) idle_world) = 1.
Proof.
  apply (C7_body_closed_exactly_once broken_task not_forced empty_store idle_world
           broken_response).
  exists probe_request. split; [| reflexivity].
  vm_compute. apply elem_of_cons. now left.
Defined.

(** C8.  In every Result that [Execute] returns the URL is non-empty exactly
    when the status is [Warning] or [Failure]; the same holds of every Result
    that [prepareEarlyResult], [prepareCollectorErrorResult],
    [prepareResponseErrorResult] and [prepareResult] build. *)
Theorem C8_url_iff_warning_or_failure :
  (forall (p : collector.BaseCollectorConnectEU) (op : tasks.Options)
          (ups : gmap string tasks.Result) (w : World)
          (r : tasks.Result) (w' : World),
      collector.Execute p op ups w = (Returned r, w') -> url_iff_problem r)
  /\ (forall p, url_iff_problem (collector.prepareEarlyResult p))
  /\ (forall p e, url_iff_problem (collector.prepareCollectorErrorResult p e))
  /\ (forall p e statusCode,
        url_iff_problem (collector.prepareResponseErrorResult p e statusCode))
  /\ (forall p body statusCode w r w',
        collector.prepareResult p body statusCode w = (Returned r, w') ->
        url_iff_problem r).
Proof.
  assert (Z0 : url_iff_problem tasks.Result_zero).
  { split; [intros N; now destruct N | intros [N | N]; discriminate N]. }
  assert (S0 : url_iff_problem skip_result).
  { split; [intros N; now destruct N | intros [N | N]; discriminate N]. }
  split; [| split; [| split; [| split]]].
  - intros p op ups w r w' X.
    destruct (Execute_gate p ups w) as [[F E] | R].
    + rewrite (Execute_bail _ _ _ _ F E) in X. injection X as <- _. exact S0.
    + now destruct (request_status p op ups w r w' R X) as (_ & _ & _ & _ & U).
  - intros p. now destruct (prepareEarlyResult_values p) as [-> | ->].
  - intros p [e|]; [| exact Z0].
    split; [intros _; now right | intros _; discriminate].
  - intros p [e|] statusCode; [| exact Z0].
    split; [intros _; now left | intros _; discriminate].
  - intros p body statusCode w r w' X.
    destruct (String.eqb_spec statusCode "200") as [-> | N].
    + rewrite prepareResult_200 in X. injection X as <- _.
      split; [intros N; now destruct N | intros [N | N]; discriminate N].
    + apply String.eqb_neq in N.
      rewrite (prepareResult_non200 _ _ _ _ N) in X. injection X as <- _.
      split; [intros _; now left | intros _; discriminate].
Qed.

Lemma C8_url_iff_warning_or_failure_witness :
  url_iff_problem
    {| tasks.Status_ := tasks.Warning;
       tasks.Summary :=
         "collector.newrelic.com (EU Region) returned a non-200 STATUS CODE: 503"
         +:+ LF +:+ "Please check network and proxy settings and try again or see -help for more options."
         +:+ LF +:+ "Response Body: unavailable";
       tasks.URL := networks_doc;
       tasks.Payload := tasks.DynNil |}.
Proof.
  eapply (proj1 C8_url_iff_warning_or_failure
            unavailable_task not_forced empty_store idle_world).
  vm_compute. reflexivity.
Defined.

(** A run past the gate returns a Result as soon as the HTTP function keeps
    to its contract: a response whenever there is no error. *)
Lemma request_returns (p : collector.BaseCollectorConnectEU) (op : tasks.Options)
    (ups : gmap string tasks.Result) (w : World)
    (resp : option http.Response) (terr : option error) :
  runs_request p ups w ->
  collector.httpGetter p probe_request = (resp, terr) ->
  (terr = Datatypes.None -> is_Some resp) ->
  exists (r : tasks.Result) (w' : World),
    collector.Execute p op ups w = (Returned r, w').
Proof.
  intros R G K. destruct terr as [e|].
  - eexists. eexists. apply (Execute_transport_error _ _ _ _ _ _ R G).
  - destruct (K eq_refl) as [a ->].
    destruct (http.readErr (http.Body a)) as [e|] eqn:E;
      [| destruct (Z.eq_dec (http.StatusCode a) 200%Z) as [C | C]].
    + eexists. eexists. apply (Execute_read_error _ _ _ _ _ _ R G E).
    + eexists. eexists. apply (Execute_ok_200 _ _ _ _ _ R G E C).
    + eexists. eexists. apply (Execute_ok_non200 _ _ _ _ _ R G E C).
Qed.

(** C2.  The classification is total and follows the ordered decision table
    (transport error: Failure; else body-read error: Warning; else status
    "200": Success; else Warning).  On [Execute]: whenever the injected HTTP
    function is called and hands back an error or a response, [Execute]
    returns one Result, whose status is the one of the table and is one of
    Success, Warning and Failure.  On the three classification functions, for
    every status-code string: each returns the status of its rows of the
    table, and every string other than "200", the empty string among them,
    gives Warning. *)
Theorem C2_classification_total :
  (forall (p : collector.BaseCollectorConnectEU) (op : tasks.Options)
          (ups : gmap string tasks.Result) (w : World)
          (resp : option http.Response) (terr : option error),
      ProbeReturned p op ups w (resp, terr) ->
      (terr = Datatypes.None -> is_Some resp) ->
      exists (r : tasks.Result) (w' : World),
        collector.Execute p op ups w = (Returned r, w')
        /\ tasks.Status_ r
           = decision_table terr
               (resp ≫= fun a => http.readErr (http.Body a))
               (from_option (fun a => strconv.Itoa (http.StatusCode a)) "" resp)
        /\ (tasks.Status_ r = tasks.Success
            \/ tasks.Status_ r = tasks.Warning
            \/ tasks.Status_ r = tasks.Failure))
  /\ (forall p e rerr statusCode,
        tasks.Status_ (collector.prepareCollectorErrorResult p (Some e))
        = decision_table (Some e) rerr statusCode)
  /\ (forall p e statusCode,
        tasks.Status_ (collector.prepareResponseErrorResult p (Some e) statusCode)
        = decision_table Datatypes.None (Some e) statusCode)
  /\ (forall p body statusCode w,
        exists (r : tasks.Result) (l : list Event),
          collector.prepareResult p body statusCode w = (Returned r, extend w l)
          /\ tasks.Status_ r = decision_table Datatypes.None Datatypes.None statusCode
          /\ (statusCode <> "200" -> tasks.Status_ r = tasks.Warning))
  /\ (forall terr rerr statusCode,
        decision_table terr rerr statusCode = tasks.Success
        \/ decision_table terr rerr statusCode = tasks.Warning
        \/ decision_table terr rerr statusCode = tasks.Failure)
  /\ (forall p body w,
        exists (r : tasks.Result) (l : list Event),
          collector.prepareResult p body "" w = (Returned r, extend w l)
          /\ tasks.Status_ r = tasks.Warning).
Proof.
  assert (P : forall p body statusCode w,
             exists (r : tasks.Result) (l : list Event),
               collector.prepareResult p body statusCode w = (Returned r, extend w l)
               /\ tasks.Status_ r
                  = decision_table Datatypes.None Datatypes.None statusCode
               /\ (statusCode <> "200" -> tasks.Status_ r = tasks.Warning)).
  { intros p body statusCode w.
    destruct (String.eqb_spec statusCode "200") as [-> | N].
    - eexists. eexists. split; [apply prepareResult_200 |].
      split; [reflexivity | intros N; now destruct N].
    - pose proof N as N'. apply String.eqb_neq in N'.
      eexists. eexists. split; [apply (prepareResult_non200 _ _ _ _ N') |].
      unfold decision_table. rewrite N'. split; [reflexivity | reflexivity]. }
  split; [| split; [| split; [| split; [| split]]]].
  - intros p op ups w resp terr H K.
    apply ProbeReturned_inv in H as [R G].
    destruct (request_returns p op ups w resp terr R G K) as (r & w' & X).
    exists r, w'. split; [exact X |].
    destruct (request_status p op ups w r w' R X) as (resp' & terr' & G' & S & _).
    rewrite G in G'. injection G' as <- <-.
    split; [exact S |]. rewrite S. apply decision_table_range.
  - reflexivity.
  - reflexivity.
  - exact P.
  - apply decision_table_range.
  - intros p body w. destruct (P p body "" w) as (r & l & X & _ & W).
    exists r, l. split; [exact X |]. now apply W.
Qed.

Lemma C2_classification_total_witness :
  exists (r : tasks.Result) (w' : World),
    collector.Execute broken_task not_forced empty_store idle_world = (Returned r, w')
    /\ tasks.Status_ r = tasks.Warning
    /\ (tasks.Status_ r = tasks.Success
        \/ tasks.Status_ r = tasks.Warning
        \/ tasks.Status_ r = tasks.Failure).
Proof.
  apply (proj1 C2_classification_total broken_task not_forced empty_store idle_world
           (Some broken_response) Datatypes.None).
  - exists probe_request. split; [| reflexivity].
    vm_compute. apply elem_of_cons. now left.
  - intros _. exists broken_response. reflexivity.
Defined.

(** C9.  The three classification functions are functions of their
    arguments alone: called with the same error, status code and body they
    build the same Result (status, summary, URL and payload), whatever the
    receiver and whatever the world they run in, the one left by an earlier
    call included; two calls of [prepareResult] in a row return twice the
    same Result. *)
Theorem C9_classification_deterministic
    (p1 p2 : collector.BaseCollectorConnectEU) (w1 w2 : World)
    (e : option error) (body statusCode : string) :
  collector.prepareCollectorErrorResult p1 e = collector.prepareCollectorErrorResult p2 e
  /\ collector.prepareResponseErrorResult p1 e statusCode
     = collector.prepareResponseErrorResult p2 e statusCode
  /\ fst (collector.prepareResult p1 body statusCode w1)
     = fst (collector.prepareResult p2 body statusCode w2)
  /\ exists r : tasks.Result,
       fst (collector.prepareResult p1 body statusCode w1) = Returned r
       /\ fst ((r1 <- collector.prepareResult p1 body statusCode ;;
                r2 <- collector.prepareResult p2 body statusCode ;;
                ret (r1, r2)) w1)
          = Returned (r, r).
Proof.
  split; [reflexivity |]. split; [reflexivity |].
  destruct (String.eqb_spec statusCode "200") as [-> | N].
  - split; [reflexivity |]. eexists. split; reflexivity.
  - apply String.eqb_neq in N. split.
    + now rewrite !(prepareResult_non200 _ _ _ _ N).
    + eexists. unfold bind.
      rewrite !(prepareResult_non200 _ _ _ _ N). split; reflexivity.
Qed.

(** C10.  Called with a nil error, [prepareCollectorErrorResult] and
    [prepareResponseErrorResult] return the zero Result: status [None], empty
    summary, empty URL, nil payload.  So with a nil error their status is
    neither [Failure] nor [Warning]. *)
Theorem C10_nil_error_gives_zero_result
    (p : collector.BaseCollectorConnectEU) (statusCode : string) :
  collector.prepareCollectorErrorResult p Datatypes.None = tasks.Result_zero
  /\ collector.prepareResponseErrorResult p Datatypes.None statusCode = tasks.Result_zero
  /\ tasks.Result_zero
     = {| tasks.Status_ := tasks.None; tasks.Summary := ""; tasks.URL := "";
          tasks.Payload := tasks.DynNil |}
  /\ tasks.Status_ (collector.prepareCollectorErrorResult p Datatypes.None) <> tasks.Failure
  /\ tasks.Status_ (collector.prepareCollectorErrorResult p Datatypes.None) <> tasks.Warning
  /\ tasks.Status_ (collector.prepareResponseErrorResult p Datatypes.None statusCode)
     <> tasks.Failure
  /\ tasks.Status_ (collector.prepareResponseErrorResult p Datatypes.None statusCode)
     <> tasks.Warning.
Proof.
  repeat split; discriminate.
Qed.

(** ** Every run of [Execute] *)

(** [Execute] always goes one of the six ways of [Run]; it leaves
    [config.Flags] as they were and only appends to the trace. *)
Lemma Execute_Run (p : collector.BaseCollectorConnectEU) (op : tasks.Options)
    (ups : gmap string tasks.Result) (w : World) :
  exists (o : Outcome tasks.Result) (l : list Event),
    collector.Execute p op ups w = (o, extend w l) /\ Run p ups w o l.
Proof.
  destruct (Execute_gate p ups w) as [[F E] | R].
  - exists (Returned skip_result), []. split.
    + rewrite extend_nil. now apply Execute_bail.
    + now constructor.
  - destruct (collector.httpGetter p probe_request) as [[resp|] [e|]] eqn:G.
    + exists (Returned (collector.prepareCollectorErrorResult p (Some e))),
        [EvHttpGet probe_request].
      split; [exact (Execute_transport_error _ op _ _ _ _ R G) |].
      now apply (RunTransportError _ _ _ (Some resp)).
    + destruct (http.readErr (http.Body resp)) as [e|] eqn:E;
        [| destruct (Z.eq_dec (http.StatusCode resp) 200%Z) as [C | C]].
      * eexists. eexists. split; [| now apply (RunReadError _ _ _ resp e)].
        exact (Execute_read_error _ op _ _ _ _ R G E).
      * eexists. eexists. split; [| now apply (RunOk200 _ _ _ resp)].
        exact (Execute_ok_200 _ op _ _ _ R G E C).
      * eexists. eexists. split; [| now apply (RunNon200 _ _ _ resp)].
        exact (Execute_ok_non200 _ op _ _ _ R G E C).
    + exists (Returned (collector.prepareCollectorErrorResult p (Some e))),
        [EvHttpGet probe_request].
      split; [exact (Execute_transport_error _ op _ _ _ _ R G) |].
      now apply (RunTransportError _ _ _ Datatypes.None).
    + eexists. eexists. split; [| now apply RunNilResponse].
      exact (Execute_nil_response _ op _ _ R G).
Qed.

Lemma runs_request_not_skip (p : collector.BaseCollectorConnectEU)
    (ups : gmap string tasks.Result) (w : World) :
  runs_request p ups w ->
  config.IsForcedTask (Flags w) "Base/Collector/ConnectEU" = false ->
  collector.prepareEarlyResult (with_upstream p ups) = skip_result ->
  False.
Proof.
  intros [F | E] F' E'; [congruence |]. rewrite E in E'. discriminate E'.
Qed.

Lemma ProbeReturned_intro (p : collector.BaseCollectorConnectEU) (op : tasks.Options)
    (ups : gmap string tasks.Result) (w : World)
    (out : option http.Response * option error) :
  runs_request p ups w ->
  collector.httpGetter p probe_request = out ->
  ProbeReturned p op ups w out.
Proof.
  intros R G. exists probe_request. split; [| exact G].
  destruct (request_events p op ups w R) as (l & -> & _).
  apply elem_of_cons. now left.
Qed.

(** The gate bails out exactly on a non-empty list of region codes without
    "eu01". *)
Lemma prepareEarlyResult_skip_iff (p : collector.BaseCollectorConnectEU) :
  collector.prepareEarlyResult p = skip_result
  <-> exists (r0 : tasks.Result) (regions : list string),
        collector.upstream p !! RegionDetect = Some r0
        /\ tasks.Payload r0 = tasks.DynStringSlice regions
        /\ regions <> []
        /\ "eu01" ∉ regions.
Proof.
  split.
  - unfold collector.prepareEarlyResult, collector.upstream_at.
    change "Base/Config/RegionDetect" with RegionDetect.
    destruct (collector.upstream p !! RegionDetect) as [r0|] eqn:K; simpl;
      [| discriminate].
    destruct (tasks.Payload r0) as [|regions| | | |] eqn:P; simpl; try discriminate.
    destruct (tasks.StringInSlice "eu01" regions) eqn:S; simpl; [discriminate |].
    destruct regions as [|x regions]; simpl; [discriminate |].
    intros _. exists r0, (x :: regions). repeat split; try assumption.
    + discriminate.
    + intros H. apply StringInSlice_elem in H. congruence.
  - intros (r0 & regions & K & P & N & H).
    now apply (prepareEarlyResult_skip p r0 regions).
Qed.

(** [Execute] looks at its receiver only through the answer of the HTTP
    function to [probe_request], and at the upstream store only through
    [prepareEarlyResult]. *)
Lemma Execute_congr (p1 p2 : collector.BaseCollectorConnectEU) (op1 op2 : tasks.Options)
    (ups1 ups2 : gmap string tasks.Result) (w : World) :
  collector.httpGetter p1 probe_request = collector.httpGetter p2 probe_request ->
  collector.prepareEarlyResult (with_upstream p1 ups1)
  = collector.prepareEarlyResult (with_upstream p2 ups2) ->
  collector.Execute p1 op1 ups1 w = collector.Execute p2 op2 ups2 w.
Proof.
  intros G E. enter_Execute. rewrite E. fold probe_request. rewrite G.
  reflexivity.
Qed.

Ltac probe_returned :=
  exists probe_request; split; [vm_compute; apply elem_of_cons; now left | reflexivity].

(** ** The request *)

(** X1.  In every run [Execute] calls the injected HTTP function at most
    once: either the run adds no event at all, or its first event is the call
    with the GET request for the EU collector (30 seconds of timeout) and no
    other call follows. *)
Theorem Execute_probes_at_most_once
    (p : collector.BaseCollectorConnectEU) (op : tasks.Options)
    (ups : gmap string tasks.Result) (w : World) :
  events (collector.Execute p op ups) w = []
  \/ exists l, events (collector.Execute p op ups) w = EvHttpGet probe_request :: l
               /\ forall wr, EvHttpGet wr ∉ l.
Proof.
  destruct (Execute_gate p ups w) as [[F E] | R].
  - left. now apply bail_events.
  - right. now apply request_events.
Qed.

(** X2.  [Execute] leaves the HTTP function uncalled exactly when
    [config.Flags] does not force the task and the upstream store holds,
    under "Base/Config/RegionDetect", a payload that is a non-empty list of
    strings without "eu01".  In particular a list that contains "eu01" lets
    the request through. *)
Theorem Execute_skips_iff
    (p : collector.BaseCollectorConnectEU) (op : tasks.Options)
    (ups : gmap string tasks.Result) (w : World) :
  ~ ProbeInvoked p op ups w
  <-> (config.IsForcedTask (Flags w) "Base/Collector/ConnectEU" = false
       /\ exists (r0 : tasks.Result) (regions : list string),
            ups !! RegionDetect = Some r0
            /\ tasks.Payload r0 = tasks.DynStringSlice regions
            /\ regions <> []
            /\ "eu01" ∉ regions).
Proof.
  rewrite ProbeInvoked_runs_request.
  rewrite <- (prepareEarlyResult_skip_iff (with_upstream p ups)). split.
  - intros N. destruct (Execute_gate p ups w) as [[F E] | R]; [now split | contradiction].
  - intros [F E] R. exact (runs_request_not_skip p ups w R F E).
Qed.

Lemma Execute_skips_iff_witness : ~ ProbeInvoked ok_task forced us_store idle_world.
Proof.
  apply (proj2 (Execute_skips_iff ok_task forced us_store idle_world)).
  split; [reflexivity |].
  exists us_detected, ["us01"]. repeat split.
  - discriminate.
  - intros H. apply list_elem_of_singleton in H. discriminate H.
Defined.

(** X3.  When the region list under "Base/Config/RegionDetect" contains
    "eu01", [Execute] calls the HTTP function, forced or not, whatever else
    the list holds. *)
Theorem eu_region_detected_probes
    (p : collector.BaseCollectorConnectEU) (op : tasks.Options)
    (ups : gmap string tasks.Result) (w : World)
    (r0 : tasks.Result) (regions : list string) :
  ups !! RegionDetect = Some r0 ->
  tasks.Payload r0 = tasks.DynStringSlice regions ->
  "eu01" ∈ regions ->
  ProbeInvoked p op ups w.
Proof.
  intros K P H. apply ProbeInvoked_runs_request.
  destruct (Execute_gate p ups w) as [[F E] | R]; [| exact R].
  apply prepareEarlyResult_skip_iff in E as (r1 & regions' & K' & P' & _ & N).
  simpl in K'. rewrite K in K'. injection K' as <-.
  rewrite P in P'. injection P' as <-. contradiction.
Qed.

Lemma eu_region_detected_probes_witness :
  ProbeInvoked ok_task not_forced both_store idle_world.
Proof.
  apply (eu_region_detected_probes ok_task not_forced both_store idle_world
           both_detected ["us01"; "eu01"]).
  - reflexivity.
  - reflexivity.
  - apply elem_of_cons. right. apply elem_of_cons. now left.
Defined.

(** ** The paths past the request *)

Lemma string_app_assoc (a b c : string) : (a +:+ b) +:+ c = a +:+ (b +:+ c).
Proof.
  induction a as [|x a IH]; [reflexivity |].
  change (String x ((a +:+ b) +:+ c) = String x (a +:+ (b +:+ c))).
  now rewrite IH.
Qed.

(** X4.  When the HTTP function hands back a response and no error and the
    reading of the body fails, [Execute] returns a Result of status
    [Warning] with the link to the remediation documentation; its summary
    names the status code of the response and ends with "Error = " and the
    text of the read error.  The bytes read before the error are in no part
    of the Result. *)
Theorem read_error_is_warning
    (p : collector.BaseCollectorConnectEU) (op : tasks.Options)
    (ups : gmap string tasks.Result) (w : World)
    (resp : http.Response) (e : error) :
  ProbeReturned p op ups w (Some resp, Datatypes.None) ->
  http.readErr (http.Body resp) = Some e ->
  exists w' : World,
    collector.Execute p op ups w
    = (Returned
         {| tasks.Status_ := tasks.Warning;
            tasks.Summary :=
              (("Status = " +:+ strconv.Itoa (http.StatusCode resp) +:+
                ". When connecting to the EU Region collector, there was an issue reading the body. ")
                 +:+ LF +:+ "Please check network and proxy settings and try again or see -help for more options.")
              +:+ "Error = " +:+ Error e;
            tasks.URL := networks_doc;
            tasks.Payload := tasks.DynNil |},
       w').
Proof.
  intros H E. apply ProbeReturned_inv in H as [R G].
  eexists. exact (Execute_read_error _ op _ _ _ _ R G E).
Qed.

Lemma read_error_is_warning_witness :
  exists w' : World,
    collector.Execute broken_task not_forced empty_store idle_world
    = (Returned
         {| tasks.Status_ := tasks.Warning;
            tasks.Summary :=
              (("Status = " +:+ "200" +:+
                ". When connecting to the EU Region collector, there was an issue reading the body. ")
                 +:+ LF +:+ "Please check network and proxy settings and try again or see -help for more options.")
              +:+ "Error = " +:+ "unexpected EOF";
            tasks.URL := networks_doc;
            tasks.Payload := tasks.DynNil |},
       w').
Proof.
  apply (read_error_is_warning broken_task not_forced empty_store idle_world
           broken_response {| Error := "unexpected EOF" |}).
  - probe_returned.
  - reflexivity.
Defined.

(** X5.  When the HTTP function hands back a response with a status code
    other than 200 and no error, and the body reads without error, [Execute]
    returns a Result of status [Warning] with the link to the remediation
    documentation; its summary contains "non-200 STATUS CODE: " followed by
    the status code in decimal, and ends with "Response Body: " and the whole
    body. *)
Theorem non_200_is_warning
    (p : collector.BaseCollectorConnectEU) (op : tasks.Options)
    (ups : gmap string tasks.Result) (w : World) (resp : http.Response) :
  ProbeReturned p op ups w (Some resp, Datatypes.None) ->
  http.readErr (http.Body resp) = Datatypes.None ->
  http.StatusCode resp <> 200%Z ->
  exists (r : tasks.Result) (w' : World),
    collector.Execute p op ups w = (Returned r, w')
    /\ tasks.Status_ r = tasks.Warning
    /\ tasks.URL r = networks_doc
    /\ tasks.Summary r
       = (("collector.newrelic.com (EU Region) returned a non-200 STATUS CODE: "
             +:+ strconv.Itoa (http.StatusCode resp))
            +:+ LF +:+ "Please check network and proxy settings and try again or see -help for more options.")
         +:+ LF +:+ "Response Body: " +:+ http.content (http.Body resp)
    /\ strings.Contains (tasks.Summary r)
         ("non-200 STATUS CODE: " +:+ strconv.Itoa (http.StatusCode resp)).
Proof.
  intros H E C. apply ProbeReturned_inv in H as [R G].
  eexists. eexists. split; [exact (Execute_ok_non200 _ op _ _ _ R G E C) |].
  cbn [tasks.Status_ tasks.Summary tasks.URL].
  split; [reflexivity |]. split; [reflexivity |]. split; [reflexivity |].
  exists "collector.newrelic.com (EU Region) returned a ",
    (LF +:+ "Please check network and proxy settings and try again or see -help for more options."
        +:+ LF +:+ "Response Body: " +:+ http.content (http.Body resp)).
  rewrite !string_app_assoc. reflexivity.
Qed.

Lemma non_200_is_warning_witness :
  exists (r : tasks.Result) (w' : World),
    collector.Execute unavailable_task not_forced empty_store idle_world = (Returned r, w')
    /\ tasks.Status_ r = tasks.Warning
    /\ tasks.URL r = networks_doc
    /\ tasks.Summary r
       = (("collector.newrelic.com (EU Region) returned a non-200 STATUS CODE: "
             +:+ strconv.Itoa 503)
            +:+ LF +:+ "Please check network and proxy settings and try again or see -help for more options.")
         +:+ LF +:+ "Response Body: " +:+ "unavailable"
    /\ strings.Contains (tasks.Summary r)
         ("non-200 STATUS CODE: " +:+ strconv.Itoa 503).
Proof.
  apply (non_200_is_warning unavailable_task not_forced empty_store idle_world
           unavailable_response).
  - probe_returned.
  - reflexivity.
  - discriminate.
Defined.

(** X6.  When the HTTP function hands back an error, the call is the only
    event of the run: a response handed back together with the error is
    neither read nor closed. *)
Theorem transport_error_leaves_body_untouched
    (p : collector.BaseCollectorConnectEU) (op : tasks.Options)
    (ups : gmap string tasks.Result) (w : World)
    (resp : option http.Response) (e : error) :
  ProbeReturned p op ups w (resp, Some e) ->
  events (collector.Execute p op ups) w = [EvHttpGet probe_request]
  /\ forall b, (EvReadAll b ∉ events (collector.Execute p op ups) w)
               /\ (EvBodyClose b ∉ events (collector.Execute p op ups) w).
Proof.
  intros H. apply ProbeReturned_inv in H as [R G].
  rewrite (events_extend _ _ _ _ (Execute_transport_error _ op _ _ _ _ R G)).
  split; [reflexivity |].
  intros b. split; intros H; apply list_elem_of_singleton in H; discriminate H.
Qed.

Lemma transport_error_leaves_body_untouched_witness :
  events (collector.Execute redirect_task not_forced empty_store) idle_world
  = [EvHttpGet probe_request]
  /\ forall b,
       (EvReadAll b ∉ events (collector.Execute redirect_task not_forced empty_store) idle_world)
       /\ (EvBodyClose b ∉ events (collector.Execute redirect_task not_forced empty_store) idle_world).
Proof.
  apply (transport_error_leaves_body_untouched redirect_task not_forced empty_store
           idle_world (Some ok_response) {| Error := "stopped after 10 redirects" |}).
  probe_returned.
Defined.



(** X8.  A Result returned by [Execute] has the status [Success] exactly
    when the HTTP function was called and handed back a response and no
    error, the body was read without error and the status code is 200. *)
Theorem Success_iff_200
    (p : collector.BaseCollectorConnectEU) (op : tasks.Options)
    (ups : gmap string tasks.Result) (w : World) (r : tasks.Result) (w' : World) :
  collector.Execute p op ups w = (Returned r, w') ->
  tasks.Status_ r = tasks.Success
  <-> exists resp : http.Response,
        ProbeReturned p op ups w (Some resp, Datatypes.None)
        /\ http.readErr (http.Body resp) = Datatypes.None
        /\ http.StatusCode resp = 200%Z.
Proof.
  intros X0. destruct (Execute_Run p op ups w) as (o & l & X & HR).
  rewrite X in X0. injection X0 as -> _. split.
  - intros S. inversion HR; subst; try discriminate S.
    exists resp. repeat split; try assumption. now apply ProbeReturned_intro.
  - intros (resp' & H & E' & C'). apply ProbeReturned_inv in H as [R' G'].
    inversion HR; subst; try reflexivity.
    + exfalso. eapply runs_request_not_skip; eassumption.
    + congruence.
    + congruence.
    + congruence.
Qed.

Lemma Success_iff_200_witness :
  tasks.Status_
    {| tasks.Status_ := tasks.Warning;
       tasks.Summary :=
         "collector.newrelic.com (EU Region) returned a non-200 STATUS CODE: 503"
         +:+ LF +:+ "Please check network and proxy settings and try again or see -help for more options."
         +:+ LF +:+ "Response Body: unavailable";
       tasks.URL := networks_doc;
       tasks.Payload := tasks.DynNil |} = tasks.Success
  <-> exists resp : http.Response,
        ProbeReturned unavailable_task not_forced empty_store idle_world
          (Some resp, Datatypes.None)
        /\ http.readErr (http.Body resp) = Datatypes.None
        /\ http.StatusCode resp = 200%Z.
Proof.
  eapply (Success_iff_200 unavailable_task not_forced empty_store idle_world).
  vm_compute. reflexivity.
Defined.

(** X9.  A Result returned by [Execute] has the status [Failure] exactly
    when the HTTP function was called and handed back an error. *)
Theorem Failure_iff_transport_error
    (p : collector.BaseCollectorConnectEU) (op : tasks.Options)
    (ups : gmap string tasks.Result) (w : World) (r : tasks.Result) (w' : World) :
  collector.Execute p op ups w = (Returned r, w') ->
  tasks.Status_ r = tasks.Failure
  <-> exists (resp : option http.Response) (e : error),
        ProbeReturned p op ups w (resp, Some e).
Proof.
  intros X0. destruct (Execute_Run p op ups w) as (o & l & X & HR).
  rewrite X in X0. injection X0 as -> _. split.
  - intros S. inversion HR; subst; try discriminate S.
    exists resp, e. now apply ProbeReturned_intro.
  - intros (resp' & e' & H). apply ProbeReturned_inv in H as [R' G'].
    inversion HR; subst; try reflexivity; try congruence.
    exfalso. eapply runs_request_not_skip; eassumption.
Qed.

Lemma Failure_iff_transport_error_witness :
  tasks.Status_ (collector.prepareCollectorErrorResult refused_task
                   (Some {| Error := "connection refused" |})) = tasks.Failure
  <-> exists (resp : option http.Response) (e : error),
        ProbeReturned refused_task not_forced empty_store idle_world (resp, Some e).
Proof.
  eapply (Failure_iff_transport_error refused_task not_forced empty_store idle_world).
  vm_compute. reflexivity.
Defined.

(** X10.  A Result returned by [Execute] has the status [None] exactly when
    the HTTP function was not called: the status tells a skipped check from
    a check that ran. *)
Theorem None_iff_skipped
    (p : collector.BaseCollectorConnectEU) (op : tasks.Options)
    (ups : gmap string tasks.Result) (w : World) (r : tasks.Result) (w' : World) :
  collector.Execute p op ups w = (Returned r, w') ->
  tasks.Status_ r = tasks.None <-> ~ ProbeInvoked p op ups w.
Proof.
  intros X0. rewrite ProbeInvoked_runs_request.
  destruct (Execute_Run p op ups w) as (o & l & X & HR).
  rewrite X in X0. injection X0 as -> _. split.
  - intros S R. inversion HR; subst; try discriminate S.
    eapply runs_request_not_skip; eassumption.
  - intros N. inversion HR; subst; try contradiction. reflexivity.
Qed.

Lemma None_iff_skipped_witness :
  tasks.Status_ skip_result = tasks.None
  <-> ~ ProbeInvoked ok_task not_forced us_store idle_world.
Proof.
  eapply (None_iff_skipped ok_task not_forced us_store idle_world).
  vm_compute. reflexivity.
Defined.

(** ** The body stream, the receiver and the upstream store *)

(** X11.  In every run of [Execute] a body stream is closed as often as one
    is read, and at most once; a stream that is read or closed is the body of
    the response that the HTTP function handed back without an error. *)
Theorem body_read_and_closed_together
    (p : collector.BaseCollectorConnectEU) (op : tasks.Options)
    (ups : gmap string tasks.Result) (w : World) :
  read_calls (events (collector.Execute p op ups) w)
  = close_calls (events (collector.Execute p op ups) w)
  /\ close_calls (events (collector.Execute p op ups) w) <= 1
  /\ forall b : http.ReadCloser,
       (EvReadAll b ∈ events (collector.Execute p op ups) w)
       \/ (EvBodyClose b ∈ events (collector.Execute p op ups) w) ->
       exists resp : http.Response,
         collector.httpGetter p probe_request = (Some resp, Datatypes.None)
         /\ b = http.Body resp.
Proof.
  destruct (Execute_Run p op ups w) as (o & l & X & HR).
  rewrite (events_extend _ _ _ _ X).
  inversion HR; subst; simpl; (split; [reflexivity |]); (split; [lia |]);
    intros b [M | M];
    repeat (apply elem_of_cons in M as [M | M];
            [first [discriminate M
                   | injection M as ->; eexists; split; [eassumption | reflexivity]] |]);
    now apply elem_of_nil in M.
Qed.

(** X12.  [Execute] takes the upstream store from its argument alone and does
    not look at its options: two receivers whose HTTP functions answer the
    request alike give the same outcome and the same world, whatever store
    each receiver carried before and whatever the options are. *)
Theorem Execute_ignores_receiver_store_and_options
    (p1 p2 : collector.BaseCollectorConnectEU) (op1 op2 : tasks.Options)
    (ups : gmap string tasks.Result) (w : World) :
  collector.httpGetter p1 probe_request = collector.httpGetter p2 probe_request ->
  collector.Execute p1 op1 ups w = collector.Execute p2 op2 ups w.
Proof.
  intros G. now apply Execute_congr.
Qed.

Lemma Execute_ignores_receiver_store_and_options_witness :
  collector.Execute stale_task forced empty_store idle_world
  = collector.Execute ok_task not_forced empty_store idle_world.
Proof.
  apply (Execute_ignores_receiver_store_and_options stale_task ok_task forced not_forced
           empty_store idle_world).
  reflexivity.
Defined.

(** X13.  [Execute] reads the upstream store only at the keys that
    [Dependencies] declares, and there only the payload: two stores whose
    entries (the zero Result for an absent key) have the same payload at each
    declared dependency give the same outcome and the same world. *)
Theorem Execute_reads_only_declared_dependencies
    (p : collector.BaseCollectorConnectEU) (op : tasks.Options)
    (ups1 ups2 : gmap string tasks.Result) (w : World) :
  (forall k : string,
      k ∈ collector.Dependencies p ->
      tasks.Payload (default tasks.Result_zero (ups1 !! k))
      = tasks.Payload (default tasks.Result_zero (ups2 !! k))) ->
  collector.Execute p op ups1 w = collector.Execute p op ups2 w.
Proof.
  intros H. apply Execute_congr; [reflexivity |].
  assert (K : "Base/Config/RegionDetect" ∈ collector.Dependencies p).
  { apply elem_of_cons. right. apply elem_of_cons. now left. }
  apply H in K.
  unfold collector.prepareEarlyResult, collector.upstream_at, with_upstream.
  cbn [collector.upstream]. now rewrite K.
Qed.

Lemma Execute_reads_only_declared_dependencies_witness :
  collector.Execute ok_task not_forced empty_store idle_world
  = collector.Execute ok_task not_forced crowded_store idle_world.
Proof.
  apply (Execute_reads_only_declared_dependencies ok_task not_forced
           empty_store crowded_store idle_world).
  intros k H.
  apply elem_of_cons in H as [-> | H]; [reflexivity |].
  apply elem_of_cons in H as [-> | H]; [reflexivity |].
  now apply elem_of_nil in H.
Defined.

(** X14.  When [config.Flags] forces the task, the upstream store has no
    influence on [Execute]: any two stores give the same outcome and the same
    world. *)
Theorem forced_run_ignores_upstream
    (p : collector.BaseCollectorConnectEU) (op : tasks.Options)
    (ups1 ups2 : gmap string tasks.Result) (w : World) :
  config.IsForcedTask (Flags w) "Base/Collector/ConnectEU" = true ->
  collector.Execute p op ups1 w = collector.Execute p op ups2 w.
Proof.
  intros F. enter_Execute. rewrite F. reflexivity.
Qed.

Lemma forced_run_ignores_upstream_witness :
  collector.Execute ok_task not_forced us_store forced_world
  = collector.Execute ok_task not_forced odd_store forced_world.
Proof.
  apply (forced_run_ignores_upstream ok_task not_forced us_store odd_store forced_world).
  reflexivity.
Defined.
